(** * validate-workflows.py: the workflow validator, embedded and verified

    The script scans the directory [github-workflows-backup], parses every
    [*.yml] entry with PyYAML, runs six textual rules over the raw text of
    the files that parse, prints a report and exits 0 or 1.

    Modelling conventions.
    - A Python [str] is a [string]: the sequence of its UTF-8 bytes.  All
      literals of the regular expressions are ASCII, so matching bytes and
      matching code points select the same substrings; the classes [\s] and
      [\d] are modelled on the ASCII range (the non-ASCII Unicode spaces and
      decimal digits are outside the model).
    - A Python [int] is a [Z].
    - [re.findall] is modelled by a backtracking matcher over the fragment
      of the regular-expression syntax that the script uses.
    - The operating system and PyYAML are an explicit environment record;
      [print], [sys.exit] and uncaught exceptions are threaded through a
      small state-and-exception monad. *)

From Stdlib Require Import ZArith Ascii String DecimalString Lia.
From stdpp Require Import base list strings sorting.

Local Open Scope Z_scope.

(** ** Python string primitives *)

Module Py.

(** The characters that the source writes with an escape. *)
Definition nl : string := String "010"%char "".
Definition dquote : string := String "034"%char "".

(** [len(s)] *)
Definition len (s : string) : nat := String.length s.

(** [s[:n]] and [s[n:]] *)
Fixpoint take (n : nat) (s : string) : string :=
  match n, s with
  | S n', String a s' => String a (take n' s')
  | _, _ => ""
  end.

Fixpoint drop (n : nat) (s : string) : string :=
  match n, s with
  | S n', String _ s' => drop n' s'
  | _, _ => s
  end.

(** [s.startswith(p)], returning the rest of [s] behind [p]. *)
Fixpoint strip_prefix (p s : string) : option string :=
  match p, s with
  | EmptyString, _ => Some s
  | String a p', String b s' => if Ascii.eqb a b then strip_prefix p' s' else None
  | String _ _, EmptyString => None
  end.

Definition startswith (s p : string) : bool :=
  match strip_prefix p s with Some _ => true | None => false end.

(** [s.endswith(suffix)] *)
Definition endswith (s suffix : string) : bool :=
  (len suffix <=? len s)%nat && String.eqb (drop (len s - len suffix) s) suffix.

(** [sub in s] *)
Fixpoint contains (sub s : string) : bool :=
  if startswith s sub then true
  else match s with
       | String _ s' => contains sub s'
       | EmptyString => false
       end.

(** ["=" * n] *)
Fixpoint repeat_str (s : string) (n : nat) : string :=
  match n with
  | O => ""
  | S n' => s +:+ repeat_str s n'
  end.

End Py.

(** ** The regular expressions of the script

    The five patterns handed to [re.findall] use literals, greedy [*] and
    [+] over a character class, concatenation and one capturing group.  The
    matcher is the usual backtracking one: a greedy repetition first takes
    as many characters as it can and gives them back one at a time while the
    rest of the pattern fails. *)

Module Re.

Definition charclass := ascii → bool.

Definition in_range (lo hi : nat) (a : ascii) : bool :=
  let n := nat_of_ascii a in ((lo <=? n) && (n <=? hi))%nat.

(** [\s] on the ASCII range: TAB LF VT FF CR, FS GS RS US, SPACE. *)
Definition space : charclass :=
  fun a => in_range 9 13 a || in_range 28 31 a || in_range 32 32 a.

(** [\d] on the ASCII range *)
Definition digit : charclass := in_range 48 57.

(** [[A-Z_]] *)
Definition upper_or_underscore : charclass :=
  fun a => in_range 65 90 a || Ascii.eqb a "_".

(** [[^c]] *)
Definition not_char (c : ascii) : charclass := fun a => negb (Ascii.eqb a c).

Inductive regex : Type :=
  | Lit (p : string)          (* a run of literal characters *)
  | Star (c : charclass)      (* [c*], greedy *)
  | Plus (c : charclass)      (* [c+], greedy *)
  | Cat (r1 r2 : regex)       (* [r1 r2] *)
  | Group (r : regex).        (* [( r )] *)

Declare Scope regex_scope.
Delimit Scope regex_scope with re.
Bind Scope regex_scope with regex.
Infix "·" := Cat (at level 60, right associativity) : regex_scope.

(** A match in progress: the text still to read and the text of the
    capturing group, once it has closed. *)
Definition result : Type := string * option string.
Definition cont : Type := string → option string → option result.

(** Greedy [c*]: the longest run first, then shorter ones. *)
Fixpoint star (c : charclass) (s : string) (k : string → option result)
  : option result :=
  match s with
  | String a s' =>
      if c a then
        match star c s' k with
        | Some r => Some r
        | None => k s
        end
      else k s
  | EmptyString => k s
  end.

Fixpoint run (r : regex) (s : string) (g : option string) (k : cont)
  : option result :=
  match r with
  | Lit p =>
      match Py.strip_prefix p s with
      | Some s' => k s' g
      | None => None
      end
  | Star c => star c s (fun s' => k s' g)
  | Plus c =>
      match s with
      | String a s' => if c a then star c s' (fun s' => k s' g) else None
      | EmptyString => None
      end
  | Cat r1 r2 => run r1 s g (fun s' g' => run r2 s' g' k)
  | Group r1 =>
      run r1 s g (fun s' _ => k s' (Some (Py.take (Py.len s - Py.len s') s)))
  end.

(** [pattern.match(s)]: the length of the match at the head of [s] and the
    item [findall] reports for it, which is the group when the pattern has
    one and the whole match otherwise. *)
Definition match_at (r : regex) (s : string) : option (nat * string) :=
  match run r s None (fun s' g => Some (s', g)) with
  | Some (s', g) =>
      let n := (Py.len s - Py.len s')%nat in
      Some (n, match g with Some x => x | None => Py.take n s end)
  | None => None
  end.

(** [re.findall]: scan from left to right; a match is reported and the scan
    resumes behind it.  [skip] counts the characters of the last match that
    the scan has still to step over. *)
Fixpoint findall_from (r : regex) (skip : nat) (s : string) : list string :=
  match skip with
  | S skip' =>
      match s with
      | String _ s' => findall_from r skip' s'
      | EmptyString => []
      end
  | O =>
      match match_at r s with
      | Some (n, item) =>
          item :: match s with
                  | String _ s' => findall_from r (Nat.pred n) s'
                  | EmptyString => []
                  end
      | None =>
          match s with
          | String _ s' => findall_from r 0 s'
          | EmptyString => []
          end
      end
  end.

Definition findall (r : regex) (s : string) : list string := findall_from r 0 s.

End Re.

Import Re.

(** ** The rule engine: [validate_workflow_file] *)

(** [r'if:\s*\$\{\{\s*secrets\.[A-Z_]+\s*\}\}'] *)
Definition secrets_in_if_re : regex :=
  (Lit "if:" · Star space · Lit "${{" · Star space · Lit "secrets." ·
   Plus upper_or_underscore · Star space · Lit "}}")%re.

(** [r'env:\s*\n\s*[A-Z_]+:'] ([re.MULTILINE] only changes [^] and [$]) *)
Definition env_definitions_re : regex :=
  (Lit "env:" · Star space · Lit Py.nl · Star space ·
   Plus upper_or_underscore · Lit ":")%re.

(** [r'needs:\s*\[([^\]]+)\]'] *)
Definition needs_re : regex :=
  (Lit "needs:" · Star space · Lit "[" · Group (Plus (not_char "]")) · Lit "]")%re.

(** [r'name:\s*([^\n]+)'] *)
Definition artifact_names_re : regex :=
  (Lit "name:" · Star space · Group (Plus (not_char "010")))%re.

(** [r'uses:\s*actions/[^@]+@v\d+'] *)
Definition hardcoded_versions_re : regex :=
  (Lit "uses:" · Star space · Lit "actions/" · Plus (not_char "@") ·
   Lit "@v" · Plus digit)%re.

Definition secrets_summary : string :=
  "Incorrect secrets usage in 'if' conditions. Use env variables instead.".
Definition found_line (m : string) : string := "  Found: " +:+ m.
Definition artifact_warning (name : string) : string :=
  "Artifact name may contain invalid characters: " +:+ name.
Definition permissions_advisory : string :=
  "Consider adding explicit permissions for security".
Definition versions_advisory : string :=
  "Consider using latest versions or pinning to specific commits for security".

(** [' ' in name or any(char in name for char in [...])] *)
Definition invalid_chars : list string :=
  ["/"; "\"; ":"; "*"; "?"; Py.dquote; "<"; ">"; "|"].

Definition has_invalid_chars (name : string) : bool :=
  Py.contains " " name || existsb (fun char => Py.contains char name) invalid_chars.

(** The body of [validate_workflow_file] behind the read of the file: the
    two lists start empty and every rule appends to them in turn. *)
Definition validate_workflow_text (content : string) : list string * list string :=
  let errors : list string := [] in
  let warnings : list string := [] in
  (* 1. secrets in if conditions *)
  let secrets_in_if := findall secrets_in_if_re content in
  let errors :=
    match secrets_in_if with
    | [] => errors
    | _ :: _ =>
        fold_left (fun errors m => errors ++ [found_line m]) secrets_in_if
                  (errors ++ [secrets_summary])
    end in
  (* 2. env context *)
  let if_env_pattern : string :=
    "if:\s*env\.[A-Z_]+\s*!?=\s*[\'" +:+ Py.dquote +:+ "][\'" +:+ Py.dquote +:+ "]\s*$" in
  let env_definitions := findall env_definitions_re content in
  (* 3. job dependencies *)
  let needs_pattern := findall needs_re content in
  (* 4. artifact naming *)
  let artifact_names := findall artifact_names_re content in
  let warnings :=
    fold_left (fun warnings name =>
                 if has_invalid_chars name
                 then warnings ++ [artifact_warning name]
                 else warnings)
              artifact_names warnings in
  (* 5. missing permissions *)
  let warnings :=
    if Py.contains "actions/checkout@v" content && negb (Py.contains "permissions:" content)
    then warnings ++ [permissions_advisory]
    else warnings in
  (* 6. hardcoded versions *)
  let hardcoded_versions := findall hardcoded_versions_re content in
  let warnings :=
    match hardcoded_versions with
    | [] => warnings
    | _ :: _ => warnings ++ [versions_advisory]
    end in
  (errors, warnings).

(** ** The environment: operating system and PyYAML *)

(** What [yaml.safe_load] does with the text of a file: it returns a
    document, raises a [yaml.YAMLError] whose text is [e], or raises
    something else, which the script does not catch. *)
Inductive yaml_outcome : Type :=
  | Loaded
  | YAMLError (e : string)
  | OtherError.

Record Env : Type := {
  (** [os.path.exists] *)
  path_exists : string → bool;
  (** [os.listdir], in the order the system yields the entries; [None]
      when it raises *)
  listdir : string → option (list string);
  (** [open(path, 'r')] and the read of the whole file; [None] when either
      raises *)
  read_text : string → option string;
  (** [yaml.safe_load] *)
  safe_load : string → yaml_outcome
}.

(** [os.path.join] of two components (POSIX) *)
Definition path_join (a b : string) : string :=
  if Py.startswith b "/" then b
  else if String.eqb a "" || Py.endswith a "/" then a +:+ b
  else a +:+ "/" +:+ b.

(** [sorted] on a list of [str] *)
Definition sorted (l : list string) : list string := merge_sort String.le l.

(** [str] of an [int] *)
Definition str_of_int (z : Z) : string :=
  DecimalString.NilEmpty.string_of_int (Z.to_int z).

(** ** The monad of the script: printed lines, the two counters and
    exceptions *)

Record state : Type := {
  stdout : list string;        (* one entry per call of [print] *)
  total_errors : Z;
  total_warnings : Z
}.

Definition initial : state :=
  {| stdout := []; total_errors := 0; total_warnings := 0 |}.

Inductive exn : Type :=
  | SystemExit (code : Z)      (* [sys.exit(code)] *)
  | Uncaught.                  (* any exception nothing catches *)

Inductive res (A : Type) : Type :=
  | Val (a : A)
  | Exc (e : exn).
Arguments Val {A} a.
Arguments Exc {A} e.

Definition M (A : Type) : Type := state → res A * state.

Global Instance M_ret : MRet M := λ A a st, (Val a, st).
Global Instance M_bind : MBind M := λ A B f m st,
  match m st with
  | (Val a, st') => f a st'
  | (Exc e, st') => (Exc e, st')
  end.

Definition raise {A} (e : exn) : M A := λ st, (Exc e, st).
Definition sys_exit {A} (code : Z) : M A := raise (SystemExit code).

Definition print (line : string) : M unit := λ st,
  (Val (), {| stdout := stdout st ++ [line];
              total_errors := total_errors st;
              total_warnings := total_warnings st |}).

Definition get_total_errors : M Z := λ st, (Val (total_errors st), st).
Definition get_total_warnings : M Z := λ st, (Val (total_warnings st), st).

Definition set_total_errors (n : Z) : M unit := λ st,
  (Val (), {| stdout := stdout st; total_errors := n;
              total_warnings := total_warnings st |}).
Definition set_total_warnings (n : Z) : M unit := λ st,
  (Val (), {| stdout := stdout st; total_errors := total_errors st;
              total_warnings := n |}).

(** A call into the environment that raises when it answers [None]. *)
Definition or_raise {A} (o : option A) : M A :=
  match o with
  | Some a => mret a
  | None => raise Uncaught
  end.

(** [for x in l: body] *)
Fixpoint for_each {A} (l : list A) (body : A → M unit) : M unit :=
  match l with
  | [] => mret ()
  | x :: l' => body x ;; for_each l' body
  end.

(** [if l:] on a list *)
Definition truthy {A} (l : list A) : bool :=
  match l with [] => false | _ :: _ => true end.

Definition when (b : bool) (m : M unit) : M unit := if b then m else mret ().

(** ** [validate_workflow_file] and [main] *)

Definition validate_workflow_file (env : Env) (file_path : string)
  : M (list string * list string) :=
  content ← or_raise (read_text env file_path);
  mret (validate_workflow_text content).

Definition workflow_dir : string := "github-workflows-backup".

Definition rule_line : string := Py.repeat_str "=" 60.

(** The body of the [for] loop of [main]; the two [continue] statements are
    the two places where a branch ends early. *)
Definition loop_body (env : Env) (file : string) : M unit :=
  if negb (Py.endswith file ".yml") then mret ()
  else
    let file_path := path_join workflow_dir file in
    print (Py.nl +:+ "📄 Checking " +:+ file +:+ "...") ;;
    (* try: with open(file_path, 'r') as f: yaml.safe_load(f) *)
    text ← or_raise (read_text env file_path);
    match safe_load env text with
    | OtherError => raise Uncaught
    | YAMLError e =>
        print ("  ❌ YAML Error: " +:+ e) ;;
        te ← get_total_errors;
        set_total_errors (te + 1)
    | Loaded =>
        print "  ✅ Valid YAML syntax" ;;
        '(errors, warnings) ← validate_workflow_file env file_path;
        when (truthy errors)
          (print "  ❌ Errors found:" ;;
           for_each errors (λ error, print ("    - " +:+ error)) ;;
           te ← get_total_errors;
           set_total_errors (te + Z.of_nat (length errors))) ;;
        when (truthy warnings)
          (print "  ⚠️  Warnings:" ;;
           for_each warnings (λ warning, print ("    - " +:+ warning)) ;;
           tw ← get_total_warnings;
           set_total_warnings (tw + Z.of_nat (length warnings))) ;;
        when (negb (truthy errors) && negb (truthy warnings))
          (print "  ✅ No issues found")
    end.

Definition main (env : Env) : M Z :=
  when (negb (path_exists env workflow_dir))
    (print ("❌ Directory " +:+ workflow_dir +:+ " not found!") ;;
     sys_exit 1) ;;
  print "🔍 Validating GitHub Actions workflow files..." ;;
  print rule_line ;;
  set_total_errors 0 ;;
  set_total_warnings 0 ;;
  entries ← or_raise (listdir env workflow_dir);
  for_each (sorted entries) (loop_body env) ;;
  print (Py.nl +:+ rule_line) ;;
  print "📊 Validation Summary:" ;;
  te ← get_total_errors;
  tw ← get_total_warnings;
  print ("  - Total Errors: " +:+ str_of_int te) ;;
  print ("  - Total Warnings: " +:+ str_of_int tw) ;;
  if te =? 0 then
    print "🎉 All workflow files are valid!" ;;
    mret 0
  else
    print "❌ Please fix the errors before using the workflows." ;;
    mret 1.

(** [if __name__ == "__main__": sys.exit(main())]: the exit status of the
    process and everything the run left behind. *)
Definition exit_status (r : res Z) : Z :=
  match r with
  | Val code => code
  | Exc (SystemExit code) => code
  | Exc Uncaught => 1
  end.

Definition script (env : Env) : Z * state :=
  let (r, st) := main env initial in (exit_status r, st).

(** A small environment to run the script on. *)
Definition demo_yaml (text : string) : yaml_outcome :=
  if Py.contains "[unclosed" text
  then YAMLError "while parsing a flow sequence"
  else Loaded.

Definition broken_text : string :=
  "key: [unclosed" +:+ Py.nl +:+
  "    if: ${{ secrets.TOKEN }}" +:+ Py.nl +:+
  "    name: my artifact".

Definition demo_files : list (string * string) :=
  [("b.yml", broken_text);
   ("notes.yaml", "name: not scanned");
   ("a.yml", "steps:" +:+ Py.nl +:+ "  - uses: actions/checkout@v2")].

(** An environment without the directory. *)
Definition bare_env : Env := {|
  path_exists _ := false;
  listdir _ := None;
  read_text _ := None;
  safe_load _ := Loaded
|}.

Definition demo_env : Env := {|
  path_exists p := String.eqb p workflow_dir;
  listdir p := if String.eqb p workflow_dir then Some (demo_files.*1) else None;
  read_text p :=
    snd <$> List.find (λ e, String.eqb (path_join workflow_dir (fst e)) p) demo_files;
  safe_load := demo_yaml
|}.

(** ** The rules, one by one, as the specification words them

    Each rule is a function from the text to its findings; the rule engine
    is their concatenation. *)

Definition rule1_secrets (content : string) : list string :=
  match findall secrets_in_if_re content with
  | [] => []
  | m :: ms => secrets_summary :: map found_line (m :: ms)
  end.

Definition rule4_artifacts (content : string) : list string :=
  map artifact_warning
      (filter (λ name, has_invalid_chars name) (findall artifact_names_re content)).

Definition rule5_permissions (content : string) : list string :=
  if Py.contains "actions/checkout@v" content && negb (Py.contains "permissions:" content)
  then [permissions_advisory] else [].

Definition rule6_versions (content : string) : list string :=
  match findall hardcoded_versions_re content with
  | [] => []
  | _ :: _ => [versions_advisory]
  end.

Definition rules_1_4_5_6 (content : string) : list string * list string :=
  (rule1_secrets content,
   rule4_artifacts content ++ rule5_permissions content ++ rule6_versions content).

(** ** What a run does with one directory entry, as the specification
    words it *)

Inductive verdict : Type :=
  | Skipped                                   (* not a [.yml] entry *)
  | Invalid (e : string)                      (* the YAML parse failed *)
  | Checked (errors warnings : list string)   (* the rule engine ran *)
  | Crashed.                                  (* an uncaught exception *)

Definition verdict_of (env : Env) (file : string) : verdict :=
  if Py.endswith file ".yml" then
    match read_text env (path_join workflow_dir file) with
    | None => Crashed
    | Some text =>
        match safe_load env text with
        | OtherError => Crashed
        | YAMLError e => Invalid e
        | Loaded =>
            Checked (validate_workflow_text text).1 (validate_workflow_text text).2
        end
    end
  else Skipped.

(** The error findings and the warning findings of an entry. *)
Definition errors_of (v : verdict) : Z :=
  match v with
  | Invalid _ => 1
  | Checked errors _ => Z.of_nat (length errors)
  | Skipped | Crashed => 0
  end.

Definition warnings_of (v : verdict) : Z :=
  match v with
  | Checked _ warnings => Z.of_nat (length warnings)
  | Skipped | Invalid _ | Crashed => 0
  end.

Definition checking_line (file : string) : string :=
  Py.nl +:+ "📄 Checking " +:+ file +:+ "...".

Definition item_line (finding : string) : string := "    - " +:+ finding.

(** The block of the report for a file that parsed: the errors, then the
    warnings, then the confirmation when there is neither. *)
Definition findings_block (errors warnings : list string) : list string :=
  (if truthy errors then "  ❌ Errors found:" :: map item_line errors else []) ++
  (if truthy warnings then "  ⚠️  Warnings:" :: map item_line warnings else []) ++
  (if negb (truthy errors) && negb (truthy warnings)
   then ["  ✅ No issues found"] else []).

Definition lines_of (file : string) (v : verdict) : list string :=
  match v with
  | Skipped => []
  | Invalid e => [checking_line file; "  ❌ YAML Error: " +:+ e]
  | Checked errors warnings =>
      [checking_line file; "  ✅ Valid YAML syntax"] ++ findings_block errors warnings
  | Crashed => [checking_line file]
  end.

Definition crashes (v : verdict) : bool :=
  match v with Crashed => true | _ => false end.

(** A state moved on by some printed lines and some findings. *)
Definition advance (lines : list string) (de dw : Z) (st : state) : state :=
  {| stdout := stdout st ++ lines;
     total_errors := total_errors st + de;
     total_warnings := total_warnings st + dw |}.

Definition sumZ (l : list Z) : Z := foldr Z.add 0 l.

(** The entries the scanner hands on: those ending in [.yml], sorted. *)
Definition workflow_files (entries : list string) : list string :=
  filter (λ file, Py.endswith file ".yml") (sorted entries).

(** The lines, the error findings and the warning findings of a list of
    entries. *)
Definition lines_of_all (env : Env) (files : list string) : list string :=
  concat (map (λ file, lines_of file (verdict_of env file)) files).

Definition errors_of_all (env : Env) (files : list string) : Z :=
  sumZ (map (λ file, errors_of (verdict_of env file)) files).

Definition warnings_of_all (env : Env) (files : list string) : Z :=
  sumZ (map (λ file, warnings_of (verdict_of env file)) files).

(** No entry of the list makes the run die of an uncaught exception. *)
Definition healthy (env : Env) (files : list string) : Prop :=
  Forall (λ file, crashes (verdict_of env file) = false) files.

Definition banner : list string :=
  ["🔍 Validating GitHub Actions workflow files..."; rule_line].

Definition summary (te tw : Z) : list string :=
  [Py.nl +:+ rule_line;
   "📊 Validation Summary:";
   "  - Total Errors: " +:+ str_of_int te;
   "  - Total Warnings: " +:+ str_of_int tw;
   if te =? 0 then "🎉 All workflow files are valid!"
   else "❌ Please fix the errors before using the workflows."].

(** ** Measures of a pattern and of a text, for the proofs *)




(** ** Lines and keys, as a reader of YAML sees them *)

(** The lines of a text. *)
Fixpoint lines (s : string) : list string :=
  match s with
  | EmptyString => [""]
  | String a s' =>
      if Ascii.eqb a "010" then "" :: lines s'
      else match lines s' with
           | l :: ls => String a l :: ls
           | [] => [String a ""]
           end
  end.

(** A line without its indentation. *)
Fixpoint lstrip (s : string) : string :=
  match s with
  | String a s' => if Re.space a then lstrip s' else s
  | EmptyString => ""
  end.

(** What stands before the first colon of a line, if it has one. *)
Fixpoint before_colon (s : string) : option string :=
  match s with
  | EmptyString => None
  | String a s' => if Ascii.eqb a ":" then Some "" else String a <$> before_colon s'
  end.

Definition line_keys (text : string) : list string :=
  omap (λ line, before_colon (lstrip line)) (lines text).


(** * Proofs *)

(** ** Lists built by appending in a loop *)

Lemma fold_left_append {A B} (f : A → B) (l : list A) (acc : list B) :
  fold_left (λ acc x, acc ++ [f x]) l acc = acc ++ map f l.
Proof.
  revert acc. induction l as [|x l IH]; intros acc; simpl.
  - by rewrite app_nil_r.
  - rewrite IH, <- app_assoc. done.
Qed.

Lemma fold_left_append_if {A B} (p : A → bool) (f : A → B) (l : list A) (acc : list B) :
  fold_left (λ acc x, if p x then acc ++ [f x] else acc) l acc
  = acc ++ map f (filter (λ x, p x) l).
Proof.
  revert acc. induction l as [|x l IH]; intros acc; simpl.
  - by rewrite app_nil_r.
  - rewrite IH, filter_cons. destruct (p x); simpl.
    + rewrite <- app_assoc. done.
    + done.
Qed.

(** The rule engine is the concatenation of rules 1, 4, 5 and 6. *)
Lemma validate_workflow_text_rules (content : string) :
  validate_workflow_text content = rules_1_4_5_6 content.
Proof.
  unfold validate_workflow_text, rules_1_4_5_6.
  unfold rule1_secrets, rule4_artifacts, rule5_permissions, rule6_versions.
  f_equal.
  - destruct (findall secrets_in_if_re content) as [|m ms]; [done|].
    by rewrite fold_left_append.
  - rewrite fold_left_append_if. simpl.
    destruct (Py.contains "actions/checkout@v" content && negb (Py.contains "permissions:" content));
      destruct (findall hardcoded_versions_re content); simpl;
      rewrite ?app_nil_r, <- ?app_assoc; done.
Qed.

(** ** Strings *)


Lemma app_empty (s : string) : "" +:+ s = s.
Proof. reflexivity. Qed.

Lemma app_String (a : ascii) (s t : string) : String a s +:+ t = String a (s +:+ t).
Proof. reflexivity. Qed.

Lemma app_empty_r (s : string) : s +:+ "" = s.
Proof. induction s as [|a s IH]; [done|]. by rewrite app_String, IH. Qed.




Lemma strip_prefix_app (p s : string) : Py.strip_prefix p (p +:+ s) = Some s.
Proof.
  induction p as [|a p IH]; [done|].
  change (String a p +:+ s) with (String a (p +:+ s)). simpl.
  by rewrite Ascii.eqb_refl.
Qed.

Lemma contains_app (sub pre post : string) :
  Py.contains sub (pre +:+ sub +:+ post) = true.
Proof.
  induction pre as [|a pre IH].
  - change ("" +:+ sub +:+ post) with (sub +:+ post).
    destruct (sub +:+ post) eqn:E; simpl; unfold Py.startswith;
      rewrite <- E, strip_prefix_app; done.
  - change (String a pre +:+ sub +:+ post) with (String a (pre +:+ sub +:+ post)).
    simpl. rewrite IH. by destruct (Py.startswith _ _).
Qed.

(** ** The matcher *)

Section Matcher.
Import Re.







Lemma run_Cat r1 r2 s g k :
  run (r1 · r2) s g k = run r1 s g (λ s' g', run r2 s' g' k).
Proof. reflexivity. Qed.




(** ** [findall] *)




Lemma findall_end r : match_at r "" = None → findall r "" = [].
Proof. unfold findall. simpl. by intros ->. Qed.





End Matcher.

(** ** The monad and the loop *)

Arguments validate_workflow_text : simpl never.

Lemma state_eq out out' e e' w w' :
  out = out' → e = e' → w = w' →
  {| stdout := out; total_errors := e; total_warnings := w |} =
  {| stdout := out'; total_errors := e'; total_warnings := w' |}.
Proof. by intros -> -> ->. Qed.

(** Unfold the primitives of the monad and compare the states field by
    field. *)
Ltac run_monad :=
  unfold mbind, M_bind, mret, M_ret, print, get_total_errors,
    get_total_warnings, set_total_errors, set_total_warnings, advance;
  simpl;
  try (apply (f_equal (pair _)); apply state_eq;
       rewrite <- ?app_assoc, ?app_nil_r; simpl; [done|lia|lia]).

Lemma advance_advance l1 l2 e1 e2 w1 w2 st :
  advance l2 e2 w2 (advance l1 e1 w1 st) = advance (l1 ++ l2) (e1 + e2) (w1 + w2) st.
Proof. unfold advance; simpl. apply state_eq; [by rewrite app_assoc|lia..]. Qed.

Lemma advance_nil st : advance [] 0 0 st = st.
Proof. destruct st; unfold advance; simpl. apply state_eq; [apply app_nil_r|lia..]. Qed.

Lemma print_advance line st : print line st = (Val (), advance [line] 0 0 st).
Proof. run_monad. Qed.

Lemma bind_val {A B} (m : M A) (f : A → M B) st a st' :
  m st = (Val a, st') → (m ≫= f) st = f a st'.
Proof. unfold mbind, M_bind. by intros ->. Qed.

Lemma bind_exc {A B} (m : M A) (f : A → M B) st e st' :
  m st = (Exc e, st') → (m ≫= f) st = (Exc e, st').
Proof. unfold mbind, M_bind. by intros ->. Qed.

Lemma for_each_print (f : string → string) (l : list string) st :
  for_each l (λ x, print (f x)) st = (Val (), advance (map f l) 0 0 st).
Proof.
  revert st. induction l as [|x l IH]; intros st; simpl.
  - by rewrite advance_nil.
  - erewrite bind_val; [|apply print_advance].
    rewrite IH, advance_advance. done.
Qed.

(** The three conditional blocks behind "Valid YAML syntax". *)
Lemma report_findings errors warnings st :
  (when (truthy errors)
     (print "  ❌ Errors found:" ;;
      for_each errors (λ error, print ("    - " +:+ error)) ;;
      te ← get_total_errors;
      set_total_errors (te + Z.of_nat (length errors))) ;;
   when (truthy warnings)
     (print "  ⚠️  Warnings:" ;;
      for_each warnings (λ warning, print ("    - " +:+ warning)) ;;
      tw ← get_total_warnings;
      set_total_warnings (tw + Z.of_nat (length warnings))) ;;
   when (negb (truthy errors) && negb (truthy warnings))
     (print "  ✅ No issues found")) st
  = (Val (), advance (findings_block errors warnings)
                     (Z.of_nat (length errors)) (Z.of_nat (length warnings)) st).
Proof.
  assert (Herr : ∀ st,
    when (truthy errors)
     (print "  ❌ Errors found:" ;;
      for_each errors (λ error, print ("    - " +:+ error)) ;;
      te ← get_total_errors;
      set_total_errors (te + Z.of_nat (length errors))) st
    = (Val (), advance (if truthy errors
                        then "  ❌ Errors found:" :: map item_line errors else [])
                       (Z.of_nat (length errors)) 0 st)).
  { intros st0. destruct errors as [|e errors]; [by rewrite advance_nil|].
    unfold when, truthy.
    erewrite bind_val; [|apply print_advance].
    erewrite bind_val; [|apply (for_each_print item_line)].
    run_monad. }
  assert (Hwarn : ∀ st,
    when (truthy warnings)
     (print "  ⚠️  Warnings:" ;;
      for_each warnings (λ warning, print ("    - " +:+ warning)) ;;
      tw ← get_total_warnings;
      set_total_warnings (tw + Z.of_nat (length warnings))) st
    = (Val (), advance (if truthy warnings
                        then "  ⚠️  Warnings:" :: map item_line warnings else [])
                       0 (Z.of_nat (length warnings)) st)).
  { intros st0. destruct warnings as [|w warnings]; [by rewrite advance_nil|].
    unfold when, truthy.
    erewrite bind_val; [|apply print_advance].
    erewrite bind_val; [|apply (for_each_print item_line)].
    run_monad. }
  erewrite bind_val; [|apply Herr].
  erewrite bind_val; [|apply Hwarn].
  unfold findings_block.
  destruct (negb (truthy errors) && negb (truthy warnings)); unfold when.
  - rewrite print_advance, !advance_advance. run_monad.
  - run_monad.
Qed.

Lemma validate_workflow_file_read env file_path content st :
  read_text env file_path = Some content →
  validate_workflow_file env file_path st = (Val (validate_workflow_text content), st).
Proof. unfold validate_workflow_file. by intros ->. Qed.

(** One iteration of the loop, whatever the entry. *)
Lemma loop_body_verdict env file st :
  loop_body env file st =
  (if crashes (verdict_of env file) then Exc Uncaught else Val (),
   advance (lines_of file (verdict_of env file))
           (errors_of (verdict_of env file))
           (warnings_of (verdict_of env file)) st).
Proof.
  unfold loop_body, verdict_of.
  destruct (Py.endswith file ".yml"); cbn [negb]; [|by rewrite advance_nil].
  erewrite bind_val; [|apply print_advance].
  destruct (read_text env (path_join workflow_dir file)) as [text|] eqn:Hread;
    [|run_monad].
  destruct (validate_workflow_text text) as [errors warnings] eqn:Hv.
  erewrite bind_val; [|reflexivity].
  destruct (safe_load env text) as [|e|]; simpl; [| |run_monad].
  - erewrite bind_val; [|apply print_advance].
    erewrite bind_val; [|by apply validate_workflow_file_read].
    rewrite Hv, report_findings, !advance_advance. run_monad.
  - erewrite bind_val; [|apply print_advance]. run_monad.
Qed.

Lemma errors_of_nonneg v : 0 ≤ errors_of v.
Proof. destruct v; simpl; lia. Qed.

Lemma warnings_of_nonneg v : 0 ≤ warnings_of v.
Proof. destruct v; simpl; lia. Qed.

Lemma errors_of_all_nonneg env files : 0 ≤ errors_of_all env files.
Proof.
  unfold errors_of_all, sumZ. induction files as [|f files IH]; simpl; [lia|].
  pose proof (errors_of_nonneg (verdict_of env f)). lia.
Qed.

Lemma warnings_of_all_nonneg env files : 0 ≤ warnings_of_all env files.
Proof.
  unfold warnings_of_all, sumZ. induction files as [|f files IH]; simpl; [lia|].
  pose proof (warnings_of_nonneg (verdict_of env f)). lia.
Qed.

(** The loop over a list of entries none of which crashes. *)
Lemma for_each_loop env files st :
  healthy env files →
  for_each files (loop_body env) st =
  (Val (), advance (lines_of_all env files) (errors_of_all env files)
                   (warnings_of_all env files) st).
Proof.
  unfold healthy, lines_of_all, errors_of_all, warnings_of_all.
  intros Hh. revert st. induction Hh as [|f files Hf _ IH]; intros st; simpl.
  - by rewrite advance_nil.
  - erewrite bind_val; [|by rewrite loop_body_verdict, Hf].
    by rewrite IH, advance_advance.
Qed.

(** An entry that does not end in [.yml] leaves the run as it was. *)
Lemma loop_body_skip env file :
  Py.endswith file ".yml" = false → loop_body env file = mret ().
Proof. unfold loop_body. by intros ->. Qed.

Lemma for_each_filter {A} (P : A → Prop) `{∀ x, Decision (P x)}
    (body : A → M unit) (l : list A) :
  (∀ x, ¬ P x → body x = mret ()) →
  for_each l body = for_each (filter P l) body.
Proof.
  intros Hskip. induction l as [|x l IH]; [done|].
  rewrite filter_cons. destruct (decide (P x)) as [|Hx]; simpl.
  - by rewrite IH.
  - by rewrite (Hskip x Hx), <- IH.
Qed.

Lemma for_each_workflow_files env entries :
  for_each (sorted entries) (loop_body env)
  = for_each (workflow_files entries) (loop_body env).
Proof.
  apply for_each_filter. intros file Hf. apply loop_body_skip.
  by destruct (Py.endswith file ".yml").
Qed.

(** The summary behind the loop. *)
Lemma main_summary st :
  (print (Py.nl +:+ rule_line) ;;
   print "📊 Validation Summary:" ;;
   te ← get_total_errors;
   tw ← get_total_warnings;
   print ("  - Total Errors: " +:+ str_of_int te) ;;
   print ("  - Total Warnings: " +:+ str_of_int tw) ;;
   if te =? 0 then
     print "🎉 All workflow files are valid!" ;;
     mret 0
   else
     print "❌ Please fix the errors before using the workflows." ;;
     mret 1) st
  = (Val (if total_errors st =? 0 then 0 else 1),
     advance (summary (total_errors st) (total_warnings st)) 0 0 st).
Proof.
  destruct st as [out te tw]. unfold summary.
  unfold mbind, M_bind, mret, M_ret, print, get_total_errors,
    get_total_warnings, advance; simpl.
  destruct (te =? 0); simpl;
    (apply (f_equal (pair _)), state_eq; [|lia..]);
    by rewrite <- !app_assoc.
Qed.

(** A whole run over a directory that exists and can be listed. *)
Lemma main_run env entries :
  path_exists env workflow_dir = true →
  listdir env workflow_dir = Some entries →
  healthy env (workflow_files entries) →
  let te := errors_of_all env (workflow_files entries) in
  let tw := warnings_of_all env (workflow_files entries) in
  main env initial =
  (Val (if te =? 0 then 0 else 1),
   advance (banner ++ lines_of_all env (workflow_files entries) ++ summary te tw)
           te tw initial).
Proof.
  intros Hex Hls Hh te tw. unfold main. rewrite Hex, Hls. cbn [negb when or_raise].
  erewrite bind_val; [|reflexivity].
  erewrite bind_val; [|apply print_advance].
  erewrite bind_val; [|apply print_advance].
  erewrite bind_val; [|reflexivity].
  erewrite bind_val; [|reflexivity].
  erewrite bind_val; [|reflexivity].
  rewrite for_each_workflow_files.
  erewrite bind_val; [|by apply for_each_loop].
  fold te tw. rewrite main_summary.
  match goal with |- context [total_errors ?S] =>
    assert (HS : S = advance (banner ++ lines_of_all env (workflow_files entries))
                             te tw initial)
      by (unfold advance, initial, banner; simpl; apply state_eq; [done|lia|lia]);
    rewrite HS
  end.
  assert (Hte : ∀ X, total_errors (advance X te tw initial) = te)
    by (intros; simpl; lia).
  assert (Htw : ∀ X, total_warnings (advance X te tw initial) = tw)
    by (intros; simpl; lia).
  rewrite Hte, Htw, advance_advance, <- app_assoc.
  apply (f_equal (pair _)), state_eq; simpl; [done|lia|lia].
Qed.

(** ** The scanner *)

Lemma sorted_Sorted entries : Sorted String.le (sorted entries).
Proof. apply (Sorted_merge_sort String.le). Qed.

Lemma sorted_Permutation entries : sorted entries ≡ₚ entries.
Proof. apply (merge_sort_Permutation String.le). Qed.

Lemma sorted_unique l1 l2 : l1 ≡ₚ l2 → sorted l1 = sorted l2.
Proof.
  intros Hp. apply (Sorted_unique String.le); try apply sorted_Sorted.
  by rewrite !sorted_Permutation.
Qed.

Lemma StronglySorted_filter {A} (R : relation A) (P : A → Prop)
    `{∀ x, Decision (P x)} (l : list A) :
  StronglySorted R l → StronglySorted R (filter P l).
Proof.
  induction 1 as [|x l Hl IH Hx]; [constructor|].
  rewrite filter_cons. destruct (decide (P x)); [|done].
  constructor; [done|]. apply Forall_forall. intros y [_ Hy]%list_elem_of_filter.
  by eapply Forall_forall in Hx.
Qed.

Lemma workflow_files_Sorted entries : Sorted String.le (workflow_files entries).
Proof.
  apply StronglySorted_Sorted, StronglySorted_filter.
  apply Sorted_StronglySorted; [apply _|apply sorted_Sorted].
Qed.

Lemma elem_of_workflow_files entries file :
  file ∈ workflow_files entries ↔ file ∈ entries ∧ Py.endswith file ".yml" = true.
Proof.
  unfold workflow_files. rewrite list_elem_of_filter, sorted_Permutation.
  rewrite Is_true_true. tauto.
Qed.

(** ** Rule 4 *)






(** ** The order of the matches *)



(** ** The model on concrete texts *)

(** A greedy [\s*] gives a character back when the group would be empty. *)
Example findall_backtracks :
  findall artifact_names_re "name:   " = [" "].
Proof. by vm_compute. Qed.

(** [\s*] runs over the end of a line, so the group can sit on the next one. *)
Example findall_next_line :
  findall artifact_names_re ("name:" +:+ Py.nl +:+ "  runs-on: x") = ["runs-on: x"].
Proof. by vm_compute. Qed.

(** The scan resumes behind a match: matches do not overlap. *)
Example findall_resumes_behind :
  findall artifact_names_re "name: name: x" = ["name: x"].
Proof. by vm_compute. Qed.

Example findall_two_secrets :
  findall secrets_in_if_re
    ("if: ${{ secrets.A }}" +:+ Py.nl +:+ "if:${{secrets.B_C}}" +:+ Py.nl +:+
     "if: ${{ secrets.lower }}")
  = ["if: ${{ secrets.A }}"; "if:${{secrets.B_C}}"].
Proof. by vm_compute. Qed.

Example str_of_int_examples : str_of_int 0 = "0" ∧ str_of_int 12 = "12".
Proof. by vm_compute. Qed.

Example sorted_example :
  sorted ["b.yml"; "a.yml"; "B.yml"; "a.yaml"] = ["B.yml"; "a.yaml"; "a.yml"; "b.yml"].
Proof. by vm_compute. Qed.

(** The scenario of two files: [a.yml] with a pinned checkout and no
    permissions, [b.yml] that does not parse. *)
Example script_demo :
  script demo_env =
  (1, {| stdout :=
           ["🔍 Validating GitHub Actions workflow files...";
            rule_line;
            checking_line "a.yml";
            "  ✅ Valid YAML syntax";
            "  ⚠️  Warnings:";
            "    - Consider adding explicit permissions for security";
            "    - Consider using latest versions or pinning to specific commits for security";
            checking_line "b.yml";
            "  ❌ YAML Error: while parsing a flow sequence";
            Py.nl +:+ rule_line;
            "📊 Validation Summary:";
            "  - Total Errors: 1";
            "  - Total Warnings: 2";
            "❌ Please fix the errors before using the workflows."];
         total_errors := 1;
         total_warnings := 2 |}).
Proof. by vm_compute. Qed.

(** An empty directory: the banner and a summary of zeros, exit status 0. *)
Example script_empty_directory :
  script {| path_exists _ := true; listdir _ := Some [];
            read_text _ := None; safe_load _ := Loaded |} =
  (0, {| stdout := banner ++ summary 0 0; total_errors := 0; total_warnings := 0 |}).
Proof. by vm_compute. Qed.

(** * The claims *)

(** C1. The exit status.  When the directory does not exist the process
    prints the one line of the failure and exits 1 with both counters
    untouched and no entry looked at.  Whenever [main] runs to its end, the
    code it returns, which is the exit status, is 0 exactly when the final
    [total_errors] is 0, whatever [total_warnings] is.  A run over a
    directory whose entries can all be read does run to its end. *)
Theorem exit_code_contract (env : Env) :
  (path_exists env workflow_dir = false →
   script env =
   (1, {| stdout := ["❌ Directory github-workflows-backup not found!"];
          total_errors := 0; total_warnings := 0 |})) ∧
  (∀ code st, main env initial = (Val code, st) →
     script env = (code, st) ∧ (code = 0 ↔ total_errors st = 0) ∧
     (code = 0 ∨ code = 1)) ∧
  (∀ entries,
     path_exists env workflow_dir = true →
     listdir env workflow_dir = Some entries →
     healthy env (workflow_files entries) →
     ∃ st, script env = (if total_errors st =? 0 then 0 else 1, st) ∧
           total_errors st = errors_of_all env (workflow_files entries)).
Proof.
  split_and!.
  - intros Hex. unfold script, main. rewrite Hex. reflexivity.
  - intros code st Hmain. unfold script. rewrite Hmain. split; [done|].
    revert Hmain. unfold main.
    destruct (path_exists env workflow_dir); cbn [negb when]; [|done].
    erewrite bind_val; [|reflexivity].
    erewrite bind_val; [|apply print_advance].
    erewrite bind_val; [|apply print_advance].
    erewrite bind_val; [|reflexivity].
    erewrite bind_val; [|reflexivity].
    destruct (listdir env workflow_dir) as [entries|]; [|done].
    erewrite bind_val; [|reflexivity].
    match goal with |- context [(for_each ?l ?b ≫= _) ?s] =>
      destruct (for_each l b s) as [[[]|e] st1] eqn:Hloop end.
    + erewrite bind_val; [|exact Hloop].
      rewrite main_summary. intros [= <- <-]. simpl.
      replace (total_errors st1 + 0) with (total_errors st1) by lia.
      destruct (total_errors st1 =? 0) eqn:E; lia.
    + erewrite bind_exc; [|exact Hloop]. done.
  - intros entries Hex Hls Hh. unfold script.
    rewrite (main_run env entries Hex Hls Hh). simpl exit_status.
    match goal with |- context [(_, ?S)] => exists S end.
    split; [|simpl; lia]. f_equal.
Qed.

Lemma exit_code_contract_witness :
  script bare_env =
    (1, {| stdout := ["❌ Directory github-workflows-backup not found!"];
           total_errors := 0; total_warnings := 0 |}) ∧
  (∃ st, script demo_env = (if total_errors st =? 0 then 0 else 1, st) ∧
         total_errors st = errors_of_all demo_env (workflow_files (demo_files.*1))).
Proof.
  split.
  - apply (proj1 (exit_code_contract bare_env)). reflexivity.
  - apply (proj2 (proj2 (exit_code_contract demo_env)) (demo_files.*1)).
    + reflexivity.
    + reflexivity.
    + vm_compute. repeat constructor.
Defined.

(** C2. A file whose YAML parse fails.  The iteration ends normally; it
    has printed the heading of the file and one line that carries the
    diagnostic of the parser, has added exactly one to [total_errors] and
    nothing to [total_warnings]; the state it leaves is a function of the
    diagnostic alone, so nothing the six rules would find in the text is in
    it; and the loop goes on with the files that follow. *)
Theorem yaml_failure_one_error env file text e st rest :
  Py.endswith file ".yml" = true →
  read_text env (path_join workflow_dir file) = Some text →
  safe_load env text = YAMLError e →
  let st' := advance [checking_line file; "  ❌ YAML Error: " +:+ e] 1 0 st in
  loop_body env file st = (Val (), st') ∧
  total_errors st' = total_errors st + 1 ∧
  total_warnings st' = total_warnings st ∧
  Py.contains e ("  ❌ YAML Error: " +:+ e) = true ∧
  for_each (file :: rest) (loop_body env) st = for_each rest (loop_body env) st'.
Proof.
  intros Hyml Hread Hload st'.
  assert (Hv : verdict_of env file = Invalid e).
  { unfold verdict_of. by rewrite Hyml, Hread, Hload. }
  assert (Hbody : loop_body env file st = (Val (), st')).
  { rewrite loop_body_verdict, Hv. done. }
  split_and!.
  - done.
  - done.
  - simpl. lia.
  - rewrite <- (app_empty_r e) at 2. apply contains_app.
  - simpl. by erewrite bind_val.
Qed.

Lemma yaml_failure_one_error_witness :
  validate_workflow_text broken_text =
    ([secrets_summary; "  Found: if: ${{ secrets.TOKEN }}"],
     [artifact_warning "my artifact"]) ∧
  loop_body demo_env "b.yml" initial =
    (Val (), {| stdout := [checking_line "b.yml";
                           "  ❌ YAML Error: while parsing a flow sequence"];
                total_errors := 1; total_warnings := 0 |}).
Proof.
  split; [by vm_compute|].
  apply (yaml_failure_one_error demo_env "b.yml" broken_text
           "while parsing a flow sequence" initial []); reflexivity.
Defined.

(** C3. The two counters.  An iteration never lowers a counter.  In a run
    over a directory whose entries can all be read, after every prefix of
    the files the counters are the sums of the error findings and of the
    warning findings of the files done so far, and are not negative; at the
    end of [main] they are the sums over all the files.  A file whose parse
    failed counts for one error and no warning, a file that parsed for the
    lengths of the two lists of the rule engine. *)
Theorem totals_are_sums env entries :
  path_exists env workflow_dir = true →
  listdir env workflow_dir = Some entries →
  healthy env (workflow_files entries) →
  (∀ file st,
     total_errors st ≤ total_errors (loop_body env file st).2 ∧
     total_warnings st ≤ total_warnings (loop_body env file st).2) ∧
  (∀ done rest, workflow_files entries = done ++ rest →
     ∃ st, for_each done (loop_body env) (advance banner 0 0 initial) = (Val (), st) ∧
           total_errors st = errors_of_all env done ∧
           total_warnings st = warnings_of_all env done ∧
           0 ≤ total_errors st ∧ 0 ≤ total_warnings st) ∧
  (∃ code st, main env initial = (Val code, st) ∧
     total_errors st = errors_of_all env (workflow_files entries) ∧
     total_warnings st = warnings_of_all env (workflow_files entries)) ∧
  (∀ file text, file ∈ workflow_files entries →
     read_text env (path_join workflow_dir file) = Some text →
     match safe_load env text with
     | YAMLError _ =>
         errors_of (verdict_of env file) = 1 ∧ warnings_of (verdict_of env file) = 0
     | Loaded =>
         errors_of (verdict_of env file)
           = Z.of_nat (length (validate_workflow_text text).1) ∧
         warnings_of (verdict_of env file)
           = Z.of_nat (length (validate_workflow_text text).2)
     | OtherError => False
     end).
Proof.
  intros Hex Hls Hh. split_and!.
  - intros file st. rewrite loop_body_verdict. simpl.
    pose proof (errors_of_nonneg (verdict_of env file)).
    pose proof (warnings_of_nonneg (verdict_of env file)). lia.
  - intros done rest Hsplit. unfold healthy in Hh.
    rewrite Hsplit in Hh. apply Forall_app in Hh as [Hdone _].
    rewrite (for_each_loop env done _ Hdone). eexists. split; [done|].
    pose proof (errors_of_all_nonneg env done).
    pose proof (warnings_of_all_nonneg env done).
    simpl. lia.
  - rewrite (main_run env entries Hex Hls Hh). eexists _, _.
    split; [done|]. simpl. lia.
  - intros file text Hin Hread.
    unfold healthy in Hh.
    assert (Hc : crashes (verdict_of env file) = false).
    { by eapply Forall_forall in Hh. }
    apply elem_of_workflow_files in Hin as [_ Hyml].
    revert Hc. unfold verdict_of. rewrite Hyml, Hread.
    by destruct (safe_load env text).
Qed.

Lemma totals_are_sums_witness :
  ∃ code st, main demo_env initial = (Val code, st) ∧
    total_errors st = errors_of_all demo_env (workflow_files (demo_files.*1)) ∧
    total_warnings st = warnings_of_all demo_env (workflow_files (demo_files.*1)).
Proof.
  apply (totals_are_sums demo_env (demo_files.*1)).
  - reflexivity.
  - reflexivity.
  - vm_compute. repeat constructor.
Defined.







(** C7. Rules 2 and 3 are dead.  On every text the rule engine returns the
    pair that rules 1, 4, 5 and 6 compute; a text on which only the patterns
    of rules 2 and 3 are found gets no finding at all. *)
Theorem rules_2_and_3_are_dead (content : string) :
  validate_workflow_text content = rules_1_4_5_6 content ∧
  let text := "env:" +:+ Py.nl +:+ "  FOO: bar" +:+ Py.nl +:+ "needs: [build, test]" in
  findall env_definitions_re text = ["env:" +:+ Py.nl +:+ "  FOO:"] ∧
  findall needs_re text = ["build, test"] ∧
  validate_workflow_text text = ([], []).
Proof.
  split; [apply validate_workflow_text_rules|].
  split_and!; by vm_compute.
Qed.

(** C9. The pattern of rule 4 is not tied to the key of a line.  The one
    line [filename: my file] has the key [filename], not [name], and still
    gets the warning of rule 4, with [my file] in it. *)
Theorem name_pattern_is_unanchored :
  let text := "filename: my file" in
  line_keys text = ["filename"] ∧
  ("name" ∉ line_keys text) ∧
  findall artifact_names_re text = ["my file"] ∧
  validate_workflow_text text =
    ([], ["Artifact name may contain invalid characters: my file"]).
Proof.
  split_and!; try (by vm_compute).
  vm_compute. intros [E|H]%elem_of_cons; [done|by apply elem_of_nil in H].
Qed.





(** * Further properties of the script *)

(** ** More on strings and on the matcher *)

Lemma strip_prefix_Some (p s s' : string) :
  Py.strip_prefix p s = Some s' → s = p +:+ s'.
Proof.
  revert s. induction p as [|a p IH]; intros [|b s]; simpl; intros H;
    simplify_eq; try done.
  destruct (Ascii.eqb a b) eqn:E; [|done].
  apply Ascii.eqb_eq in E as ->. by rewrite app_String, <- (IH _ H).
Qed.






(** Every item [findall] reports is the item of a match at some place of
    the text. *)
Lemma findall_from_elem r skip s item :
  item ∈ findall_from r skip s →
  ∃ pre s' n, s = pre +:+ s' ∧ match_at r s' = Some (n, item).
Proof.
  revert skip.
  assert (Hcons : ∀ a s,
    (∃ pre s' n, s = pre +:+ s' ∧ match_at r s' = Some (n, item)) →
    ∃ pre s' n, String a s = pre +:+ s' ∧ match_at r s' = Some (n, item)).
  { intros a s0 (pre & s' & n & -> & ?). by exists (String a pre), s', n. }
  induction s as [|a s IH]; intros skip Hin.
  - destruct skip; simpl in Hin; [|by apply elem_of_nil in Hin].
    destruct (match_at r "") as [[n it]|] eqn:Hm; [|by apply elem_of_nil in Hin].
    apply elem_of_cons in Hin as [->|Hin]; [|by apply elem_of_nil in Hin].
    by exists "", "", n.
  - destruct skip as [|skip]; simpl in Hin; [|by eauto].
    destruct (match_at r (String a s)) as [[n it]|] eqn:Hm; [|by eauto].
    apply elem_of_cons in Hin as [->|Hin]; [|by eauto].
    by exists "", (String a s), n.
Qed.

(** A pattern that opens with a literal is only found in a text that holds
    the literal. *)
Lemma findall_needs_literal p r s :
  Py.contains p s = false → findall (Lit p · r) s = [].
Proof.
  intros Hc. destruct (findall (Lit p · r) s) as [|item rest] eqn:E; [done|].
  assert (Hin : item ∈ findall (Lit p · r) s) by (rewrite E; apply list_elem_of_here).
  apply findall_from_elem in Hin as (pre & s' & n & -> & Hm).
  unfold match_at in Hm. rewrite run_Cat in Hm. simpl in Hm.
  destruct (Py.strip_prefix p s') as [s''|] eqn:Hp; [|done].
  apply strip_prefix_Some in Hp as ->.
  by rewrite contains_app in Hc.
Qed.





(** ** The rule engine *)





(** X2. A text without [if:] gets no error; a text without [name:],
    without [uses:] and without [actions/checkout@v] gets no warning. *)
Theorem no_anchor_no_finding (content : string) :
  (Py.contains "if:" content = false →
   (validate_workflow_text content).1 = []) ∧
  (Py.contains "name:" content = false →
   Py.contains "uses:" content = false →
   Py.contains "actions/checkout@v" content = false →
   (validate_workflow_text content).2 = []).
Proof.
  rewrite validate_workflow_text_rules. unfold rules_1_4_5_6. split.
  - intros Hif. cbn [fst]. unfold rule1_secrets, secrets_in_if_re.
    by rewrite findall_needs_literal.
  - intros Hname Huses Hco. cbn [snd].
    unfold rule4_artifacts, rule5_permissions, rule6_versions,
      artifact_names_re, hardcoded_versions_re.
    by rewrite !findall_needs_literal, Hco.
Qed.

Lemma no_anchor_no_finding_witness :
  let content := "on: push" +:+ Py.nl +:+ "jobs: {}" in
  (validate_workflow_text content).1 = [] ∧ (validate_workflow_text content).2 = [].
Proof.
  intros content. split.
  - apply (proj1 (no_anchor_no_finding content)). reflexivity.
  - apply (proj2 (no_anchor_no_finding content)); reflexivity.
Defined.




(** ** The loop and the run *)

Lemma for_each_app {A} (l1 l2 : list A) (body : A → M unit) st :
  for_each (l1 ++ l2) body st =
  (for_each l1 body ;; for_each l2 body) st.
Proof.
  revert st. induction l1 as [|x l1 IH]; intros st; [done|].
  simpl. unfold mbind, M_bind in *. destruct (body x st) as [[[]|e] st1]; [|done].
  apply IH.
Qed.

Lemma for_each_ext {A} (l : list A) (body1 body2 : A → M unit) :
  (∀ x, x ∈ l → body1 x = body2 x) →
  for_each l body1 = for_each l body2.
Proof.
  induction l as [|x l IH]; intros Heq; [done|].
  simpl. rewrite (Heq x) by apply list_elem_of_here.
  rewrite IH; [done|]. intros y Hy. apply Heq. by apply list_elem_of_further.
Qed.

(** The loop ends normally or dies of an uncaught exception; it never
    calls [sys.exit]. *)
Lemma for_each_loop_cases env files st :
  ∃ st', for_each files (loop_body env) st = (Val (), st') ∨
         for_each files (loop_body env) st = (Exc Uncaught, st').
Proof.
  revert st. induction files as [|f files IH]; intros st; simpl.
  - exists st. by left.
  - unfold mbind, M_bind. rewrite loop_body_verdict.
    destruct (crashes (verdict_of env f)); [eexists; by right|].
    apply IH.
Qed.

(** The loop on a list whose first entry that crashes is [file]. *)
Lemma for_each_crash env done file rest st :
  healthy env done →
  crashes (verdict_of env file) = true →
  for_each (done ++ file :: rest) (loop_body env) st =
  (Exc Uncaught,
   advance (lines_of_all env done ++ [checking_line file])
           (errors_of_all env done) (warnings_of_all env done) st).
Proof.
  intros Hdone Hcrash. rewrite for_each_app.
  erewrite bind_val; [|by apply for_each_loop].
  simpl. erewrite bind_exc; [|by rewrite loop_body_verdict, Hcrash].
  destruct (verdict_of env file); try done.
  rewrite advance_advance. simpl. f_equal. apply state_eq; [done|lia..].
Qed.

(** [main] up to the loop. *)
Lemma main_listed env entries :
  path_exists env workflow_dir = true →
  listdir env workflow_dir = Some entries →
  main env initial =
  (for_each (workflow_files entries) (loop_body env) ;;
   print (Py.nl +:+ rule_line) ;;
   print "📊 Validation Summary:" ;;
   te ← get_total_errors;
   tw ← get_total_warnings;
   print ("  - Total Errors: " +:+ str_of_int te) ;;
   print ("  - Total Warnings: " +:+ str_of_int tw) ;;
   if te =? 0 then
     print "🎉 All workflow files are valid!" ;;
     mret 0
   else
     print "❌ Please fix the errors before using the workflows." ;;
     mret 1) (advance banner 0 0 initial).
Proof.
  intros Hex Hls. unfold main. rewrite Hex, Hls. cbn [negb when or_raise].
  erewrite bind_val; [|reflexivity].
  erewrite bind_val; [|apply print_advance].
  erewrite bind_val; [|apply print_advance].
  erewrite bind_val; [|reflexivity].
  erewrite bind_val; [|reflexivity].
  erewrite bind_val; [|reflexivity].
  by rewrite for_each_workflow_files.
Qed.

(** X5. An entry that cannot be read, or on which [yaml.safe_load] raises
    something that is not a [YAMLError], ends the run: its heading is the
    last line printed, no later entry is looked at, no summary is printed,
    and the exit status is 1 whatever was counted before. *)
Theorem uncaught_exception_stops_run env entries done file rest :
  path_exists env workflow_dir = true →
  listdir env workflow_dir = Some entries →
  workflow_files entries = done ++ file :: rest →
  healthy env done →
  crashes (verdict_of env file) = true →
  script env =
  (1, advance (banner ++ lines_of_all env done ++ [checking_line file])
              (errors_of_all env done) (warnings_of_all env done) initial).
Proof.
  intros Hex Hls Hsplit Hdone Hcrash. unfold script.
  rewrite (main_listed env entries Hex Hls), Hsplit.
  erewrite bind_exc; [|by apply for_each_crash].
  simpl exit_status. rewrite advance_advance.
  apply (f_equal (pair _)), state_eq; simpl; [done|lia..].
Qed.

Lemma uncaught_exception_stops_run_witness :
  let env := {| path_exists _ := true;
                listdir _ := Some ["c.yml"; "a.yml"; "b.yml"];
                read_text p :=
                  if String.eqb p "github-workflows-backup/b.yml" then None
                  else Some "name: my artifact";
                safe_load _ := Loaded |} in
  script env =
  (1, {| stdout := banner ++
           [checking_line "a.yml"; "  ✅ Valid YAML syntax"; "  ⚠️  Warnings:";
            "    - Artifact name may contain invalid characters: my artifact";
            checking_line "b.yml"];
         total_errors := 0; total_warnings := 1 |}).
Proof.
  intros env.
  apply (uncaught_exception_stops_run env ["c.yml"; "a.yml"; "b.yml"]
           ["a.yml"] "b.yml" ["c.yml"]); try reflexivity.
  vm_compute. repeat constructor.
Defined.

(** X6. The exit status is always 0 or 1, and it is 0 only when [main]
    ran to its end and returned 0. *)
Theorem exit_status_zero_or_one (env : Env) :
  ((script env).1 = 0 ∨ (script env).1 = 1) ∧
  ((script env).1 = 0 → ∃ st, main env initial = (Val 0, st)).
Proof.
  unfold script.
  destruct (path_exists env workflow_dir) eqn:Hex;
    [|unfold main; rewrite Hex; simpl; split; [by right|done]].
  destruct (listdir env workflow_dir) as [entries|] eqn:Hls;
    [|unfold main; rewrite Hex, Hls; simpl; split; [by right|done]].
  rewrite (main_listed env entries Hex Hls).
  destruct (for_each_loop_cases env (workflow_files entries)
              (advance banner 0 0 initial)) as [st' [Hl|Hl]].
  - erewrite bind_val; [|exact Hl]. rewrite main_summary. simpl.
    destruct (total_errors st' =? 0); split; eauto. done.
  - erewrite bind_exc; [|exact Hl]. simpl. split; [by right|done].
Qed.

Lemma item_line_not_confirmation x : item_line x ≠ "  ✅ No issues found".
Proof. unfold item_line. rewrite !app_String. intros H; discriminate H. Qed.

Lemma confirmation_not_in_items l : "  ✅ No issues found" ∉ map item_line l.
Proof.
  intros (x & Hx & _)%list_elem_of_fmap. by apply (item_line_not_confirmation x).
Qed.

(** The confirmation is in the block of a file exactly when the rule engine
    found nothing. *)
Lemma confirmation_in_block errors warnings :
  "  ✅ No issues found" ∈ findings_block errors warnings ↔
  errors = [] ∧ warnings = [].
Proof.
  unfold findings_block. split.
  - intros Hin. destruct errors as [|e errors], warnings as [|w warnings];
      [done|exfalso..]; cbn [truthy negb andb] in Hin;
      rewrite ?app_nil_r, ?app_nil_l in Hin;
      repeat (apply elem_of_app in Hin as [Hin|Hin]
              || apply elem_of_cons in Hin as [Hin|Hin]);
      try discriminate Hin;
      try (by eapply confirmation_not_in_items);
      try (by apply elem_of_nil in Hin);
      by eapply item_line_not_confirmation.
  - intros [-> ->]. simpl. apply list_elem_of_here.
Qed.

(** X7. A file that parses and on which the rule engine finds nothing gets
    three lines, the last one the confirmation, and changes no counter; the
    confirmation is printed for a file that parses only in that case. *)
Theorem clean_file_report env file text st :
  Py.endswith file ".yml" = true →
  read_text env (path_join workflow_dir file) = Some text →
  safe_load env text = Loaded →
  (validate_workflow_text text = ([], []) →
   loop_body env file st =
   (Val (), {| stdout := stdout st ++ [checking_line file;
                                       "  ✅ Valid YAML syntax";
                                       "  ✅ No issues found"];
               total_errors := total_errors st;
               total_warnings := total_warnings st |})) ∧
  ∃ block,
    stdout (loop_body env file st).2 =
      stdout st ++ [checking_line file; "  ✅ Valid YAML syntax"] ++ block ∧
    ("  ✅ No issues found" ∈ block ↔ validate_workflow_text text = ([], [])).
Proof.
  intros Hyml Hread Hload.
  assert (Hver : verdict_of env file =
                 Checked (validate_workflow_text text).1 (validate_workflow_text text).2).
  { unfold verdict_of. by rewrite Hyml, Hread, Hload. }
  split.
  - intros Hv. rewrite loop_body_verdict, Hver, Hv. simpl.
    apply (f_equal (pair _)), state_eq; simpl; [done|lia..].
  - rewrite loop_body_verdict, Hver.
    exists (findings_block (validate_workflow_text text).1 (validate_workflow_text text).2).
    split; [done|]. rewrite confirmation_in_block.
    destruct (validate_workflow_text text) as [e w]. simpl.
    split; [by intros [-> ->]|by intros [= -> ->]].
Qed.

Lemma clean_file_report_witness :
  let env := {| path_exists _ := true; listdir _ := Some ["ci.yml"];
                read_text _ := Some "on: push"; safe_load _ := Loaded |} in
  loop_body env "ci.yml" initial =
  (Val (), {| stdout := [checking_line "ci.yml"; "  ✅ Valid YAML syntax";
                         "  ✅ No issues found"];
              total_errors := 0; total_warnings := 0 |}).
Proof.
  intros env.
  apply (proj1 (clean_file_report env "ci.yml" "on: push" initial
                  eq_refl eq_refl eq_refl)).
  reflexivity.
Defined.

Lemma workflow_files_nil entries :
  Forall (λ file, Py.endswith file ".yml" = false) entries →
  workflow_files entries = [].
Proof.
  intros Hall. unfold workflow_files.
  assert (Hs : Forall (λ file, Py.endswith file ".yml" = false) (sorted entries))
    by (by rewrite sorted_Permutation).
  induction Hs as [|f l Hf _ IH]; [done|].
  rewrite filter_cons, Hf. done.
Qed.

(** X8. A directory without any entry that ends in [.yml], the empty
    directory among them, gives the banner, a summary of zero errors and
    zero warnings, and the exit status 0; no file is opened. *)
Theorem no_workflow_files_exit_zero env entries :
  path_exists env workflow_dir = true →
  listdir env workflow_dir = Some entries →
  Forall (λ file, Py.endswith file ".yml" = false) entries →
  script env =
  (0, {| stdout := banner ++
           [Py.nl +:+ rule_line; "📊 Validation Summary:";
            "  - Total Errors: 0"; "  - Total Warnings: 0";
            "🎉 All workflow files are valid!"];
         total_errors := 0; total_warnings := 0 |}).
Proof.
  intros Hex Hls Hall. unfold script.
  assert (Hnil := workflow_files_nil entries Hall).
  assert (Hh : healthy env (workflow_files entries))
    by (rewrite Hnil; constructor).
  rewrite (main_run env entries Hex Hls Hh), Hnil. reflexivity.
Qed.

Lemma no_workflow_files_exit_zero_witness :
  (script {| path_exists _ := true;
             listdir _ := Some ["README.md"; "ci.yaml"; "yml"];
             read_text _ := None; safe_load _ := OtherError |}).1 = 0.
Proof.
  rewrite (no_workflow_files_exit_zero _ ["README.md"; "ci.yaml"; "yml"]);
    [reflexivity..|].
  repeat constructor.
Defined.

(** X9. The report of a run that reaches its end: the two lines of the
    banner, then one block per entry ending in [.yml], in ascending order
    of the names, each block opening with the heading of its file, then the
    five lines of the summary, which carry the two totals. *)
Theorem report_layout env entries :
  path_exists env workflow_dir = true →
  listdir env workflow_dir = Some entries →
  healthy env (workflow_files entries) →
  let files := workflow_files entries in
  let te := errors_of_all env files in
  let tw := warnings_of_all env files in
  stdout (script env).2 =
    ["🔍 Validating GitHub Actions workflow files..."; rule_line] ++
    concat (map (λ file, lines_of file (verdict_of env file)) files) ++
    [Py.nl +:+ rule_line;
     "📊 Validation Summary:";
     "  - Total Errors: " +:+ str_of_int te;
     "  - Total Warnings: " +:+ str_of_int tw;
     if te =? 0 then "🎉 All workflow files are valid!"
     else "❌ Please fix the errors before using the workflows."] ∧
  Sorted String.le files ∧
  (∀ file, file ∈ files →
     ∃ more, lines_of file (verdict_of env file) = checking_line file :: more) ∧
  total_errors (script env).2 = te ∧
  total_warnings (script env).2 = tw.
Proof.
  intros Hex Hls Hh files te tw. unfold script.
  rewrite (main_run env entries Hex Hls Hh). fold files te tw.
  split_and!.
  - reflexivity.
  - apply workflow_files_Sorted.
  - intros file Hin. assert (Hc : crashes (verdict_of env file) = false).
    { unfold healthy in Hh. by eapply Forall_forall in Hh. }
    apply elem_of_workflow_files in Hin as [_ Hyml].
    revert Hc. unfold verdict_of. rewrite Hyml.
    destruct (read_text env _) as [text|]; [|done].
    destruct (safe_load env text); [by eexists..|done].
  - simpl. lia.
  - simpl. lia.
Qed.

Lemma report_layout_witness :
  stdout (script demo_env).2 =
    ["🔍 Validating GitHub Actions workflow files..."; rule_line] ++
    concat (map (λ file, lines_of file (verdict_of demo_env file)) ["a.yml"; "b.yml"]) ++
    [Py.nl +:+ rule_line;
     "📊 Validation Summary:";
     "  - Total Errors: 1";
     "  - Total Warnings: 2";
     "❌ Please fix the errors before using the workflows."].
Proof.
  assert (Hh : healthy demo_env (workflow_files (demo_files.*1)))
    by (vm_compute; repeat constructor).
  exact (proj1 (report_layout demo_env (demo_files.*1) eq_refl eq_refl Hh)).
Defined.

Lemma loop_body_agree env1 env2 file :
  safe_load env1 = safe_load env2 →
  read_text env1 (path_join workflow_dir file)
    = read_text env2 (path_join workflow_dir file) →
  loop_body env1 file = loop_body env2 file.
Proof.
  intros Hs Hr. unfold loop_body, validate_workflow_file. by rewrite Hs, Hr.
Qed.

(** X10. What a run depends on.  Two environments that agree on the
    existence of the directory, whose listings of it hold the same entries
    in any order, that parse alike and that agree on the content of every
    listed entry ending in [.yml] give the same output, counters and exit
    status: the order of the listing does not matter and no other file is
    ever opened. *)
Theorem run_depends_only_on_yml_entries env1 env2 entries1 entries2 :
  path_exists env1 workflow_dir = path_exists env2 workflow_dir →
  listdir env1 workflow_dir = Some entries1 →
  listdir env2 workflow_dir = Some entries2 →
  entries1 ≡ₚ entries2 →
  safe_load env1 = safe_load env2 →
  (∀ file, file ∈ entries1 → Py.endswith file ".yml" = true →
     read_text env1 (path_join workflow_dir file)
       = read_text env2 (path_join workflow_dir file)) →
  script env1 = script env2.
Proof.
  intros Hex Hl1 Hl2 Hperm Hs Hr. unfold script.
  destruct (path_exists env1 workflow_dir) eqn:Hex1.
  - rewrite (main_listed env1 entries1 Hex1 Hl1).
    rewrite (main_listed env2 entries2 (eq_sym Hex) Hl2).
    assert (Hfiles : workflow_files entries2 = workflow_files entries1).
    { unfold workflow_files. by rewrite (sorted_unique _ _ Hperm). }
    rewrite Hfiles.
    rewrite (for_each_ext _ (loop_body env1) (loop_body env2)); [done|].
    intros file [Hin Hyml]%elem_of_workflow_files.
    apply loop_body_agree; auto.
  - unfold main. rewrite <- Hex, Hex1. reflexivity.
Qed.

Lemma run_depends_only_on_yml_entries_witness :
  script demo_env =
  script {| path_exists _ := true;
            listdir _ := Some ["notes.yaml"; "a.yml"; "b.yml"];
            read_text p :=
              if String.eqb p "github-workflows-backup/notes.yaml" then None
              else read_text demo_env p;
            safe_load := demo_yaml |}.
Proof.
  apply (run_depends_only_on_yml_entries demo_env _
           (demo_files.*1) ["notes.yaml"; "a.yml"; "b.yml"]);
    try reflexivity.
  - vm_compute. eapply perm_trans; [apply perm_swap|].
    apply perm_skip, perm_swap.
  - intros file Hin Hyml. vm_compute in Hin.
    repeat (apply elem_of_cons in Hin as [->|Hin]); try reflexivity; try discriminate Hyml.
    by apply elem_of_nil in Hin.
Defined.






Lemma exit_status_zero_or_one_witness :
  let env := {| path_exists _ := true; listdir _ := Some [];
                read_text _ := None; safe_load _ := Loaded |} in
  ∃ st, main env initial = (Val 0, st).
Proof.
  intros env. apply (proj2 (exit_status_zero_or_one env)). reflexivity.
Defined.
